(** * Movie-Flix backend: the content-based recommender of [backend/main.py]

    The module keeps three process-wide caches ([movies_df], [tfidf_matrix],
    [cosine_sim]), fills them in [prepare_content_based_filtering] and reads
    them in the request handler [get_movie_recommendations].

    The program is a sequence of pandas / numpy / scikit-learn calls on
    module globals.  It is embedded here as a program in a small state and
    exception monad over the three globals.  The data-frame operations the
    program uses are given their pandas meaning on a row-oriented model of a
    frame; the two numeric kernels of scikit-learn
    ([TfidfVectorizer.fit_transform] and [cosine_similarity]) compute in
    binary floating point and are taken as parameters of the build. *)

From Stdlib Require Import ZArith QArith Qcanon Lia.
From stdpp Require Import base option list numbers strings gmap pretty sorting.

Local Open Scope string_scope.

(** ** Python values, dictionaries and exceptions *)

(** The cell values that occur in the columns the program touches: integers
    ([id]), strings ([title], [overview], [poster_path]), JSON [null]
    (Python [None]) and the missing-value marker [nan] that pandas puts in a
    cell whose key is absent from the source record. *)
Inductive value : Type :=
  | VInt (n : Z)
  | VStr (s : string)
  | VNone
  | VNaN.

#[global] Instance value_eq_dec : EqDecision value.
Proof. solve_decision. Defined.

(** A Python [dict] with string keys (a JSON object). *)
Abbreviation dict := (gmap string value).

(** [pandas.isna] on a cell. *)
Definition isna (v : value) : bool :=
  match v with
  | VNone | VNaN => true
  | _ => false
  end.

(** The exception classes the program can meet, each with its message.  The
    messages the statements below quote are the library's own; the others
    are shortened, and nothing depends on their wording. *)
Inductive exn : Type :=
  | KeyError (msg : string)
  | IndexError (msg : string)
  | TypeError (msg : string)
  | ValueError (msg : string)
  | AttributeError (msg : string)
  | RequestException (msg : string).

(** [str(e)] *)
Definition str (e : exn) : string :=
  match e with
  | KeyError m | IndexError m | TypeError m | ValueError m
  | AttributeError m | RequestException m => m
  end.

Definition NoneType_not_subscriptable : exn :=
  TypeError "'NoneType' object is not subscriptable".

(** ** Scores

    A similarity score is a finite binary64 number.  The handler only ever
    compares scores (the key of [sorted]); a finite float is a rational
    number and the float comparison is the comparison of the rationals, so a
    score is modelled by its rational value in canonical form ([+0.0] and
    [-0.0] compare equal in Python and are the same rational). *)
Abbreviation matrix := (list (list Qc)).

Definition score_lt (a b : Qc) : bool := bool_decide (a < b)%Qc.

(** ** Data frames *)

(** A frame is its set of column labels and its rows in order, each row with
    its index label.  [pd.DataFrame] numbers the rows 0, 1, ...; filtering
    keeps the labels. *)
Record DataFrame : Type := mkDataFrame {
  columns : gset string;
  rows : list (nat * dict)
}.

Definition nrows (df : DataFrame) : nat := length (rows df).

(** The cell of a row under a column label. A record that lacks the key has
    [nan] there. *)
Definition cell (c : string) (r : dict) : value := default VNaN (r !! c).

(** [pd.DataFrame(movies)] for a list of dicts: the columns are the union of
    the keys; a record lacking a key gets [nan] in that column. *)
Definition fill (cols : gset string) (m : dict) : dict :=
  m ∪ gset_to_gmap VNaN cols.

Definition pd_DataFrame (movies : list dict) : DataFrame :=
  let cols := ⋃ (dom <$> movies) in
  {| columns := cols; rows := imap (λ i m, (i, fill cols m)) movies |}.

(** [df[c]]: the column as a list of cells, [KeyError] for an unknown label. *)
Definition df_getitem (df : DataFrame) (c : string) : exn + list value :=
  if decide (c ∈ columns df)
  then inr ((λ r, cell c r.2) <$> rows df)
  else inl (KeyError ("'" +:+ c +:+ "'")).

(** [series == n] against an integer: only an integer cell can be equal. *)
Definition value_eq_int (n : Z) (v : value) : bool :=
  match v with
  | VInt k => bool_decide (k = n)
  | _ => false
  end.

(** [df[mask]] with a boolean mask aligned on the rows. *)
Fixpoint mask_rows {A} (l : list A) (mask : list bool) : list A :=
  match l, mask with
  | x :: l', b :: mask' =>
      if b then x :: mask_rows l' mask' else mask_rows l' mask'
  | _, _ => []
  end.

Definition df_mask (df : DataFrame) (mask : list bool) : DataFrame :=
  {| columns := columns df; rows := mask_rows (rows df) mask |}.

(** [df.index] *)
Definition index (df : DataFrame) : list nat := fst <$> rows df.

(** [idx[0]] on an index object *)
Definition index_getitem0 (ix : list nat) : exn + nat :=
  match ix with
  | i :: _ => inr i
  | [] => inl (IndexError "index 0 is out of bounds for axis 0 with size 0")
  end.

(** [a[i]] on a two-dimensional numpy array with a non-negative [i] *)
Definition ndarray_getitem (a : matrix) (i : nat) : exn + list Qc :=
  match a !! i with
  | Some r => inr r
  | None =>
      inl (IndexError ("index " +:+ pretty i +:+
                       " is out of bounds for axis 0 with size " +:+
                       pretty (length a)))
  end.

(** [df.iloc[positions]] with a list of non-negative positions *)
Definition iloc (df : DataFrame) (positions : list nat) : exn + DataFrame :=
  match mapM (λ p, rows df !! p) positions with
  | Some rs => inr {| columns := columns df; rows := rs |}
  | None => inl (IndexError "positional indexers are out-of-bounds")
  end.

(** [df[[c1, ..., ck]]]: the frame restricted to the listed columns *)
Definition project (cols : list string) (r : dict) : dict :=
  list_to_map ((λ c, (c, cell c r)) <$> cols).

Definition df_getitem_list (df : DataFrame) (cols : list string)
  : exn + DataFrame :=
  if decide (Forall (λ c, c ∈ columns df) cols)
  then inr {| columns := list_to_set cols;
              rows := (λ r, (r.1, project cols r.2)) <$> rows df |}
  else inl (KeyError "not in index").

(** [df.to_dict('records')] *)
Definition to_dict_records (df : DataFrame) : list dict := snd <$> rows df.

(** [df[c] = series]: adds or replaces a column, cell by cell *)
Definition df_setitem (df : DataFrame) (c : string) (s : list value)
  : DataFrame :=
  {| columns := {[c]} ∪ columns df;
     rows := zip_with (λ r v, (r.1, <[c := v]> r.2)) (rows df) s |}.

(** ** Python built-ins used by the handler *)

(** [list(enumerate(xs))] *)
Definition enumerate {A} (xs : list A) : list (nat * A) := imap pair xs.

(** [xs[a:b]] for [0 <= a <= b] *)
Definition slice {A} (a b : nat) (xs : list A) : list A :=
  take (b - a) (drop a xs).

(** [list.sort]: elements are taken left to right and each is inserted into
    the sorted prefix behind every element that is not greater; only [<] on
    keys is used.  This is the binary insertion sort CPython runs on short
    lists; every stable sort returns the same list. *)
Fixpoint insort {A} (lt : A → A → bool) (x : A) (prefix : list A) : list A :=
  match prefix with
  | [] => [x]
  | y :: ys => if lt x y then x :: y :: ys else y :: insort lt x ys
  end.

Definition list_sort {A} (lt : A → A → bool) (xs : list A) : list A :=
  fold_left (λ acc x, insort lt x acc) xs [].

(** [sorted(xs, key=key, reverse=reverse)]: CPython reverses the list, sorts
    it and reverses the result when [reverse] is set. *)
Definition sorted {A} (key : A → Qc) (reverse : bool) (xs : list A) : list A :=
  let lt x y := score_lt (key x) (key y) in
  if reverse then rev (list_sort lt (rev xs)) else list_sort lt xs.

(** ** The module globals and the monad of the program *)

(** The three caches of the module, [None] until assigned.  The TF-IDF
    matrix is never read back by the handler; it is kept as the dense matrix
    of its entries. *)
Record State : Type := mkState {
  movies_df : option DataFrame;
  tfidf_matrix : option matrix;
  cosine_sim : option matrix
}.

(** [movies_df = None; tfidf_matrix = None; cosine_sim = None] *)
Definition initial_state : State :=
  {| movies_df := None; tfidf_matrix := None; cosine_sim := None |}.

(** A computation reads and writes the globals and returns or raises. *)
Definition M (A : Type) : Type := State → State * (exn + A).

Definition ret {A} (a : A) : M A := λ st, (st, inr a).

Definition raise {A} (e : exn) : M A := λ st, (st, inl e).

Definition bind {A B} (c : M A) (k : A → M B) : M B :=
  λ st, match c st with
        | (st', inr a) => k a st'
        | (st', inl e) => (st', inl e)
        end.

(** A library call: it does not touch the globals. *)
Definition lift {A} (r : exn + A) : M A := λ st, (st, r).

(** Loading a global name. *)
Definition load {A} (g : State → A) : M A := λ st, (st, inr (g st)).

(** Assigning a global name ([global movies_df, tfidf_matrix, cosine_sim]). *)
Definition store_movies_df (df : DataFrame) : M unit :=
  λ st, ({| movies_df := Some df; tfidf_matrix := tfidf_matrix st;
            cosine_sim := cosine_sim st |}, inr tt).

Definition store_tfidf_matrix (m : matrix) : M unit :=
  λ st, ({| movies_df := movies_df st; tfidf_matrix := Some m;
            cosine_sim := cosine_sim st |}, inr tt).

Definition store_cosine_sim (m : matrix) : M unit :=
  λ st, ({| movies_df := movies_df st; tfidf_matrix := tfidf_matrix st;
            cosine_sim := Some m |}, inr tt).

Declare Scope py_scope.
Delimit Scope py_scope with py.
Notation "'let*' x ':=' c 'in' k" := (bind c (λ x, k))
  (at level 10, x name, c at level 100, k at level 200) : py_scope.

(** [o[...]] and [o.attr] on a global that may still be [None] *)
Definition subscriptable {A} (o : option A) : exn + A :=
  match o with
  | Some a => inr a
  | None => inl NoneType_not_subscriptable
  end.

Definition has_attribute {A} (attr : string) (o : option A) : exn + A :=
  match o with
  | Some a => inr a
  | None =>
      inl (AttributeError
             ("'NoneType' object has no attribute '" +:+ attr +:+ "'"))
  end.

(** ** The request handler *)

(** [HTTPException(status_code=..., detail=...)] *)
Record HTTPException : Type := mkHTTPException {
  status_code : Z;
  detail : string
}.

(** The JSON body [{"recommendations": [...]}] *)
Record Response : Type := mkResponse {
  recommendations : list dict
}.

Local Open Scope py_scope.

(** The body of the [try] block, lines 102-119. *)
Definition recommend_body (movie_id : Z) : M Response :=
  let* df := bind (load movies_df) (λ g, lift (subscriptable g)) in
  let* ids := lift (df_getitem df "id") in
  let* idx := lift (index_getitem0
                      (index (df_mask df (value_eq_int movie_id <$> ids)))) in
  let* sim := bind (load cosine_sim) (λ g, lift (subscriptable g)) in
  let* row := lift (ndarray_getitem sim idx) in
  let sim_scores := enumerate row in
  let sim_scores := sorted snd true sim_scores in
  let sim_scores := slice 1 6 sim_scores in
  let movie_indices := fst <$> sim_scores in
  let* df2 := bind (load movies_df) (λ g, lift (has_attribute "iloc" g)) in
  let* picked := lift (iloc df2 movie_indices) in
  let* public := lift (df_getitem_list picked
                         ["id"; "title"; "overview"; "poster_path"]) in
  ret {| recommendations := to_dict_records public |}.

(** [try: ... except Exception as e: raise HTTPException(500, str(e))] *)
Definition try_except_500 {A} (body : M A)
  : State → State * (HTTPException + A) :=
  λ st, match body st with
        | (st', inr a) => (st', inr a)
        | (st', inl e) =>
            (st', inl {| status_code := 500; detail := str e |})
        end.

Definition get_movie_recommendations (movie_id : Z)
  : State → State * (HTTPException + Response) :=
  try_except_500 (recommend_body movie_id).

(** ** Building the index *)

(** [a + b] on two cells of object columns, as pandas evaluates it: the
    operator is applied where both cells are present and the result is [nan]
    where either is missing. *)
Definition add_cells (a b : value) : exn + value :=
  if isna a || isna b then inr VNaN
  else match a, b with
       | VStr x, VStr y => inr (VStr (x +:+ y))
       | VInt x, VInt y => inr (VInt (x + y))
       | _, _ => inl (TypeError "unsupported operand type(s) for +")
       end.

(** The first failure of a list of results, or all the values. *)
Fixpoint sequence {A} (rs : list (exn + A)) : exn + list A :=
  match rs with
  | [] => inr []
  | r :: rs' =>
      match r with
      | inl e => inl e
      | inr a =>
          match sequence rs' with
          | inl e => inl e
          | inr l => inr (a :: l)
          end
      end
  end.

(** [series + scalar] and [series + series] (same index) *)
Definition series_add_scalar (s : list value) (v : value) : exn + list value :=
  sequence ((λ a, add_cells a v) <$> s).

Definition series_add (s t : list value) : exn + list value :=
  sequence (zip_with add_cells s t).

(** What the vectorizer does with one raw document before tokenizing it:
    [nan] is refused, anything that is not a string has no [lower]. *)
Definition decode (doc : value) : exn + string :=
  match doc with
  | VStr s => inr s
  | VNaN =>
      inl (ValueError
        "np.nan is an invalid document, expected byte or unicode string.")
  | VNone => inl (AttributeError "'NoneType' object has no attribute 'lower'")
  | VInt _ => inl (AttributeError "'int' object has no attribute 'lower'")
  end.

Section Build.

(** The outcome of the catalog call [fetch_popular_movies()]: the list
    under ["results"] or the exception of the request. *)
Variable fetch_popular_movies : exn + list dict.

(** scikit-learn's numeric kernels on well-formed input: the TF-IDF matrix
    of a list of texts and the cosine similarities of the rows of two
    matrices. *)
Variable tfidf_kernel : list string → exn + matrix.
Variable cosine_similarity : matrix → matrix → exn + matrix.

(** [TfidfVectorizer(stop_words='english').fit_transform(series)] *)
Definition fit_transform (docs : list value) : exn + matrix :=
  match sequence (decode <$> docs) with
  | inl e => inl e
  | inr texts => tfidf_kernel texts
  end.

(** Lines 55-72.  Each global is assigned as soon as its value is computed.
    Line 72 reads [tfidf_matrix] back right after line 69 assigned it, so
    the [None] case of that load is never taken. *)
Definition prepare_content_based_filtering : M unit :=
  let* movies := lift fetch_popular_movies in
  let* _ := store_movies_df (pd_DataFrame movies) in
  let* df := bind (load movies_df) (λ g, lift (subscriptable g)) in
  let* overview := lift (df_getitem df "overview") in
  let* spaced := lift (series_add_scalar overview (VStr " ")) in
  let* title := lift (df_getitem df "title") in
  let* combined := lift (series_add spaced title) in
  let* _ := store_movies_df (df_setitem df "combined_features" combined) in
  let* df' := bind (load movies_df) (λ g, lift (subscriptable g)) in
  let* features := lift (df_getitem df' "combined_features") in
  let* tfidf := lift (fit_transform features) in
  let* _ := store_tfidf_matrix tfidf in
  let* x := bind (load tfidf_matrix) (λ g, lift (subscriptable g)) in
  let* sim := lift (cosine_similarity x x) in
  store_cosine_sim sim.

End Build.

(** ** Vocabulary of the statements *)

(** The fields of a recommendation entry (line 118). *)
Definition public_fields : list string :=
  ["id"; "title"; "overview"; "poster_path"].

(** The Corpus record at a row position and its public view. *)
Definition record_at (df : DataFrame) (p : nat) : dict :=
  default ∅ (snd <$> rows df !! p).

Definition public_record (df : DataFrame) (p : nat) : dict :=
  project public_fields (record_at df p).

(** The value of [sim_scores] after line 109 and after line 112, for the
    similarity row of the queried movie. *)
Definition ranked (row : list Qc) : list (nat * Qc) :=
  sorted snd true (enumerate row).

Definition top5 (row : list Qc) : list (nat * Qc) :=
  slice 1 6 (ranked row).

(** A built index: the frame and the similarity matrix of a completed build.
    The frame has its rows labelled 0, 1, ... and carries the four public
    columns; the similarity matrix is square of the size of the Corpus. *)
Record built (st : State) (df : DataFrame) (sim : matrix) : Prop := {
  built_movies_df : movies_df st = Some df;
  built_cosine_sim : cosine_sim st = Some sim;
  built_index : index df = seq 0 (nrows df);
  built_columns : Forall (λ c, c ∈ columns df) public_fields;
  built_height : length sim = nrows df;
  built_width : Forall (λ r, length r = nrows df) sim
}.

(** The Corpus holds (does not hold) a record with the given id. *)
Definition has_id (movie_id : Z) (r : nat * dict) : Prop :=
  cell "id" r.2 = VInt movie_id.

Definition present (movie_id : Z) (df : DataFrame) : Prop :=
  Exists (has_id movie_id) (rows df).

Definition absent (movie_id : Z) (df : DataFrame) : Prop :=
  Forall (λ r, ¬ has_id movie_id r) (rows df).

(** The first row position whose id is the queried one. *)
Definition first_row (movie_id : Z) (df : DataFrame) (i : nat) : Prop :=
  (∃ r, rows df !! i = Some r ∧ has_id movie_id r) ∧
  ∀ j r, j < i → rows df !! j = Some r → ¬ has_id movie_id r.

(** The index has not been built: [cosine_sim], the last global the build
    assigns, is still [None]. *)
Definition not_built (st : State) : Prop := cosine_sim st = None.

(** Status 500 is what the handler's [except Exception] clause gives every
    exception; a failure that the boundary can tell apart from a generic one
    (a NotFound, a FailedPrecondition) carries another status. *)
Definition generic_failure (e : HTTPException) : Prop := status_code e = 500%Z.

Definition classified_failure (r : HTTPException + Response) : Prop :=
  ∃ e, r = inl e ∧ ¬ generic_failure e.

(** A computation that leaves the globals as they are. *)
Definition read_only {A} (c : M A) : Prop := ∀ st, (c st).1 = st.




(** A record has its overview and title as strings. *)
Definition has_texts (m : dict) : Prop :=
  ∃ o t, m !! "overview" = Some (VStr o) ∧ m !! "title" = Some (VStr t).

(** [overview + ' ' + title] of a record whose two fields are strings. *)
Definition feature_text (m : dict) : string :=
  match cell "overview" m, cell "title" m with
  | VStr o, VStr t => (o +:+ " ") +:+ t
  | _, _ => ""
  end.

(** ** Concrete data for running the program *)

Definition movie (i : Z) (t o : string) : dict :=
  {[ "id" := VInt i; "title" := VStr t; "overview" := VStr o;
     "poster_path" := VNone ]}.

(** The example Corpus of the specification (section 8). *)
Definition alpha : dict := movie 1 "Alpha" "a hero saves the world".
Definition beta : dict := movie 2 "Beta" "a hero saves the world".
Definition gamma : dict := movie 3 "Gamma" "a chef bakes bread".

Definition frame_of (movies : list dict) : DataFrame :=
  df_setitem (pd_DataFrame movies) "combined_features"
    ((λ m, VStr (feature_text m)) <$> movies).

(** Alpha and Beta have score 1 to each other, Gamma has score 0 to both. *)
Definition sim_twins : matrix :=
  [ [1%Qc; 1%Qc; 0%Qc]; [1%Qc; 1%Qc; 0%Qc]; [0%Qc; 0%Qc; 1%Qc] ].

Definition st_twins : State :=
  {| movies_df := Some (frame_of [alpha; beta; gamma]);
     tfidf_matrix := Some [ [1%Qc; 0%Qc]; [1%Qc; 0%Qc]; [0%Qc; 1%Qc] ];
     cosine_sim := Some sim_twins |}.


Definition null_overview : dict :=
  {[ "id" := VInt 4; "title" := VStr "Delta"; "overview" := VNone;
     "poster_path" := VNone ]}.



(** Total stand-ins for the two kernels with the right shapes, to run the
    build on concrete data: they never raise, so a failure of a build run
    with them is a failure of the program around them. *)
Definition unit_tfidf (texts : list string) : exn + matrix :=
  inr ((λ _, [1%Qc]) <$> texts).

Definition ones_similarity (a b : matrix) : exn + matrix :=
  inr ((λ _, (λ _, 1%Qc) <$> b) <$> a).

(** ** The catalog client and the pass-through endpoints *)

(** A value of the query string of a catalog request. *)
Inductive param : Type :=
  | PStr (s : string)
  | PInt (n : Z)
  | PBool (b : bool)
  | PNone.

(** A JSON value of a catalog response body: a scalar or a list of movie
    records.  The endpoints pass these values through without looking into
    them; the build looks into the list under ["results"]. *)
Inductive json : Type :=
  | JNum (n : Z)
  | JText (s : string)
  | JBool (b : bool)
  | JNull
  | JMovies (records : list dict).

Definition BASE_URL : string := "https://api.themoviedb.org/3".

(** [d[k]] on a Python dict *)
Definition dict_getitem {V} (d : gmap string V) (k : string) : exn + V :=
  match d !! k with
  | Some v => inr v
  | None => inl (KeyError ("'" +:+ k +:+ "'"))
  end.

(** [try: ... except Exception as e: raise HTTPException(500, str(e))] around
    a block that does not touch the globals. *)
Definition except_500 {A} (r : exn + A) : HTTPException + A :=
  match r with
  | inr a => inr a
  | inl e => inl {| status_code := 500; detail := str e |}
  end.

(** What [pd.DataFrame(x)] accepts of a JSON value: a list of records, or
    null (the empty frame); a scalar is refused before anything is built. *)
Definition DataFrame_arg (x : json) : exn + list dict :=
  match x with
  | JMovies records => inr records
  | JNull => inr []
  | _ => inl (ValueError "DataFrame constructor not properly called!")
  end.

Section Catalog.

(** [os.getenv("TMDB_API_KEY")], and the two steps of a request:
    [requests.get(url, params=params)] and [response.json()]. *)
Variable TMDB_API_KEY : option string.
Variable HttpResponse : Type.
Variable requests_get : string → gmap string param → exn + HttpResponse.
Variable response_json : HttpResponse → exn + gmap string json.

Definition api_key : param :=
  match TMDB_API_KEY with
  | Some k => PStr k
  | None => PNone
  end.

(** Lines 32-43. *)
Definition fetch_movies (page : Z) : exn + gmap string json :=
  let url := BASE_URL +:+ "/discover/movie" in
  let params : gmap string param :=
    {[ "api_key" := api_key; "language" := PStr "en-US";
       "sort_by" := PStr "popularity.desc"; "include_adult" := PBool false;
       "include_video" := PBool false; "page" := PInt page ]} in
  match requests_get url params with
  | inl e => inl e
  | inr response => response_json response
  end.

(** Lines 45-53. *)
Definition fetch_popular_movies : exn + json :=
  let url := BASE_URL +:+ "/movie/popular" in
  let params : gmap string param :=
    {[ "api_key" := api_key; "language" := PStr "en-US";
       "page" := PInt 1 ]} in
  match requests_get url params with
  | inl e => inl e
  | inr response =>
      match response_json response with
      | inl e => inl e
      | inr body => dict_getitem body "results"
      end
  end.

(** Lines 78-89. The values of the returned dict are evaluated in the order
    they are written. *)
Definition get_movies (page : Z) : HTTPException + gmap string json :=
  except_500
    match fetch_movies page with
    | inl e => inl e
    | inr response =>
        match dict_getitem response "results" with
        | inl e => inl e
        | inr movies =>
        match dict_getitem response "total_pages" with
        | inl e => inl e
        | inr total_pages =>
        match dict_getitem response "page" with
        | inl e => inl e
        | inr current_page =>
        match dict_getitem response "total_results" with
        | inl e => inl e
        | inr total_results =>
            inr {[ "movies" := movies; "total_pages" := total_pages;
                   "current_page" := current_page;
                   "total_results" := total_results ]}
        end end end end
    end.

(** Lines 91-97. *)
Definition get_popular_movies : HTTPException + gmap string json :=
  except_500
    match fetch_popular_movies with
    | inl e => inl e
    | inr movies => inr {[ "movies" := movies ]}
    end.

(** Lines 74-76: the start-up hook runs the build on what the popular
    listing returned.  The fetch and the frame constructor both come before
    the first assignment of a global, so the outcome of the two is the
    outcome of the first step of the build. *)
Definition startup_event
    (tfidf_kernel : list string → exn + matrix)
    (cosine_similarity : matrix → matrix → exn + matrix) : M unit :=
  prepare_content_based_filtering
    match fetch_popular_movies with
    | inl e => inl e
    | inr movies => DataFrame_arg movies
    end
    tfidf_kernel cosine_similarity.

End Catalog.

(** A record that has no poster_path key. *)
Definition no_poster : dict :=
  {[ "id" := VInt 5; "title" := VStr "Echo"; "overview" := VStr "a sound" ]}.

(** A catalog that answers every request with the same body. *)
Definition constant_catalog (body : gmap string json)
  : string → gmap string param → exn + gmap string json :=
  λ _ _, inr body.

Definition page_body : gmap string json :=
  {[ "page" := JNum 2; "results" := JMovies [alpha; beta];
     "total_pages" := JNum 9; "total_results" := JNum 170 ]}.

(** The body the catalog sends when it refuses the API key. *)
Definition error_body : gmap string json :=
  {[ "success" := JBool false; "status_code" := JNum 7;
     "status_message" := JText "Invalid API key" ]}.

(** ** Sorting *)

Section Sorting.
Context {A : Type} (lt : A → A → bool).

Lemma insort_perm (x : A) (l : list A) : insort lt x l ≡ₚ x :: l.
Proof.
  induction l as [|y l IH]; simpl; [done|].
  destruct (lt x y); [done|].
  rewrite IH. apply Permutation_swap.
Qed.

Lemma list_sort_rev (xs : list A) :
  list_sort lt (rev xs) = foldr (insort lt) [] xs.
Proof.
  unfold list_sort. rewrite <- fold_left_rev_right, rev_involutive.
  reflexivity.
Qed.

Lemma foldr_insort_perm (xs : list A) : foldr (insort lt) [] xs ≡ₚ xs.
Proof.
  induction xs as [|x xs IH]; simpl; [done|].
  by rewrite insort_perm, IH.
Qed.

Lemma list_sort_perm (xs : list A) : list_sort lt xs ≡ₚ xs.
Proof.
  rewrite <- (rev_involutive xs) at 1.
  rewrite list_sort_rev, foldr_insort_perm.
  symmetry. apply Permutation_rev.
Qed.
End Sorting.

Lemma sorted_perm {A} (key : A → Qc) (reverse : bool) (xs : list A) :
  sorted key reverse xs ≡ₚ xs.
Proof.
  unfold sorted. destruct reverse.
  - rewrite <- Permutation_rev, list_sort_perm. symmetry. apply Permutation_rev.
  - apply list_sort_perm.
Qed.

Lemma sorted_length {A} (key : A → Qc) (reverse : bool) (xs : list A) :
  length (sorted key reverse xs) = length xs.
Proof. apply Permutation_length, sorted_perm. Qed.







(** ** The monad: computations that only read *)

Lemma read_only_ret {A} (a : A) : read_only (ret a).
Proof. done. Qed.

Lemma read_only_lift {A} (r : exn + A) : read_only (lift r).
Proof. done. Qed.

Lemma read_only_load {A} (g : State → A) : read_only (load g).
Proof. done. Qed.

Lemma read_only_bind {A B} (c : M A) (k : A → M B) :
  read_only c → (∀ a, read_only (k a)) → read_only (bind c k).
Proof.
  intros Hc Hk st. unfold bind. specialize (Hc st).
  destruct (c st) as [st' [e|a]]; simpl in *; subst; [done|]. apply Hk.
Qed.

Create HintDb read_only.

#[local] Hint Resolve read_only_ret read_only_lift read_only_load
  read_only_bind : read_only.

Lemma recommend_body_read_only (movie_id : Z) :
  read_only (recommend_body movie_id).
Proof. unfold recommend_body. repeat (intros; apply read_only_bind); auto with read_only. Qed.

(** ** Data-frame lemmas *)

Lemma value_eq_int_true (n : Z) (v : value) :
  value_eq_int n v = true ↔ v = VInt n.
Proof.
  destruct v as [k| | |]; simpl; [|split; congruence..].
  rewrite bool_decide_eq_true. split; congruence.
Qed.

Lemma mask_head (movie_id : Z) (l : list (nat * dict)) (k : nat) :
  fst <$> l = seq k (length l) →
  match fst <$> mask_rows l
          ((λ r, value_eq_int movie_id (cell "id" r.2)) <$> l) with
  | [] => Forall (λ r, ¬ has_id movie_id r) l
  | i :: _ =>
      ∃ j, i = k + j ∧
        (∃ r, l !! j = Some r ∧ has_id movie_id r) ∧
        ∀ j' r, j' < j → l !! j' = Some r → ¬ has_id movie_id r
  end.
Proof.
  revert k. induction l as [|[i r] l IH]; intros k Hl; simpl; [constructor|].
  simpl in Hl. injection Hl as Hi Hl. subst i.
  destruct (value_eq_int movie_id (cell "id" r)) eqn:Hv; simpl.
  - exists 0. split; [lia|]. split.
    + exists (k, r). split; [done|]. by apply value_eq_int_true.
    + intros j' r' Hj. lia.
  - assert (Hr : ¬ has_id movie_id (k, r)).
    { unfold has_id. simpl. rewrite <- value_eq_int_true. by rewrite Hv. }
    specialize (IH (S k) Hl).
    destruct (fst <$> mask_rows l _) as [|i' rest].
    + by constructor.
    + destruct IH as (j & -> & Hj & Hbefore). exists (S j).
      split; [lia|]. split; [done|].
      intros [|j'] r' Hlt Hlook; simpl in Hlook.
      * by injection Hlook as <-.
      * apply (Hbefore j'); [lia|done].
Qed.

Lemma enumerate_lookup {A} (xs : list A) (p : nat) (i : nat) (x : A) :
  enumerate xs !! p = Some (i, x) ↔ i = p ∧ xs !! p = Some x.
Proof.
  unfold enumerate. rewrite list_lookup_imap.
  destruct (xs !! p) as [y|]; simpl.
  - split; [by intros [= <- <-]|by intros [-> [= ->]]].
  - split; [done|by intros [_ ?]].
Qed.

Lemma ranked_perm (row : list Qc) : ranked row ≡ₚ enumerate row.
Proof. apply sorted_perm. Qed.

Lemma ranked_length (row : list Qc) : length (ranked row) = length row.
Proof.
  unfold ranked, enumerate. by rewrite sorted_length, length_imap.
Qed.

Lemma ranked_elem (row : list Qc) (i : nat) (s : Qc) :
  (i, s) ∈ ranked row ↔ row !! i = Some s.
Proof.
  rewrite ranked_perm, list_elem_of_lookup. split.
  - intros [p Hp]. apply enumerate_lookup in Hp as [-> ?]. done.
  - intros Hi. exists i. by apply enumerate_lookup.
Qed.

Lemma top5_length (row : list Qc) :
  length (top5 row) = min 5 (length row - 1).
Proof.
  unfold top5, slice. by rewrite length_take, length_drop, ranked_length.
Qed.

Lemma top5_elem (row : list Qc) (a : nat * Qc) :
  a ∈ top5 row → a ∈ ranked row.
Proof.
  unfold top5, slice. intros Ha.
  apply (subseteq_drop 1), (subseteq_take 5). exact Ha.
Qed.

Lemma top5_bound (row : list Qc) :
  Forall (λ p, p < length row) (fst <$> top5 row).
Proof.
  apply Forall_fmap, Forall_forall. intros [i s] Ha. simpl.
  apply top5_elem, ranked_elem in Ha. by apply lookup_lt_Some in Ha.
Qed.

Lemma iloc_in_range (df : DataFrame) (ps : list nat) :
  Forall (λ p, p < nrows df) ps →
  ∃ rs, iloc df ps = inr {| columns := columns df; rows := rs |} ∧
        Forall2 (λ p r, rows df !! p = Some r) ps rs.
Proof.
  intros Hps. unfold iloc.
  destruct (mapM (λ p, rows df !! p) ps) as [rs|] eqn:Hm.
  - exists rs. split; [done|]. by apply mapM_Some_1.
  - apply mapM_None_1, Exists_exists in Hm as (p & Hp & Hnone).
    rewrite Forall_forall in Hps. apply Hps in Hp.
    apply lookup_ge_None in Hnone. unfold nrows in Hp. lia.
Qed.

Lemma public_of_picked (df : DataFrame) (ps : list nat)
    (rs : list (nat * dict)) :
  Forall2 (λ p r, rows df !! p = Some r) ps rs →
  snd <$> ((λ r, (r.1, project public_fields r.2)) <$> rs)
  = public_record df <$> ps.
Proof.
  induction 1 as [|p r ps rs Hp _ IH]; simpl; [done|].
  f_equal; [|exact IH].
  unfold public_record, record_at. by rewrite Hp.
Qed.

(** What the handler body computes on a built index. *)
Lemma recommend_body_absent st df sim movie_id :
  built st df sim → absent movie_id df →
  recommend_body movie_id st
  = (st, inl (IndexError "index 0 is out of bounds for axis 0 with size 0")).
Proof.
  intros [Hdf Hsim Hix Hcols _ _] Habs.
  unfold recommend_body, bind, load, lift. rewrite Hdf. simpl.
  unfold df_getitem. apply Forall_cons in Hcols as [Hid _].
  rewrite decide_True by done.
  rewrite <- list_fmap_compose. unfold index, df_mask. simpl.
  pose proof (mask_head movie_id (rows df) 0 Hix) as Hm.
  unfold compose.
  destruct (fst <$> mask_rows (rows df) _) as [|i rest]; [done|].
  destruct Hm as (j & _ & (r & Hr & Hhas) & _).
  unfold absent in Habs. rewrite Forall_forall in Habs.
  exfalso. apply (Habs r); [|done]. by eapply list_elem_of_lookup_2.
Qed.

Lemma recommend_body_present st df sim movie_id :
  built st df sim → present movie_id df →
  ∃ i row, first_row movie_id df i ∧ sim !! i = Some row ∧
    length row = nrows df ∧
    recommend_body movie_id st
    = (st, inr {| recommendations :=
                    public_record df <$> (fst <$> top5 row) |}).
Proof.
  intros [Hdf Hsim Hix Hcols Hh Hw] Hpres.
  pose proof (mask_head movie_id (rows df) 0 Hix) as Hm.
  unfold recommend_body, bind, load, lift. rewrite Hdf. simpl.
  unfold df_getitem. pose proof Hcols as Hcols'.
  apply Forall_cons in Hcols' as [Hid _].
  rewrite decide_True by done.
  rewrite <- list_fmap_compose. unfold index, df_mask, compose. simpl.
  destruct (fst <$> mask_rows (rows df) _) as [|i rest].
  { exfalso. unfold present in Hpres. apply Exists_exists in Hpres
      as (r & Hr & Hhas). rewrite Forall_forall in Hm. by apply (Hm r). }
  destruct Hm as (j & -> & (r & Hr & Hhas) & Hbefore). simpl.
  rewrite Hsim. simpl. unfold ndarray_getitem.
  assert (Hj : j < length sim).
  { rewrite Hh. unfold nrows. by eapply lookup_lt_Some. }
  apply lookup_lt_is_Some in Hj as [row Hrow]. rewrite Hrow.
  assert (Hlen : length row = nrows df).
  { rewrite Forall_forall in Hw. apply Hw. by eapply list_elem_of_lookup_2. }
  exists j, row. split; [by split; [exists r|]|]. split; [done|].
  split; [done|].
  change (slice 1 6 (rev (list_sort _ (rev (enumerate row)))))
    with (top5 row).
  destruct (iloc_in_range df (fst <$> top5 row)) as (rs & -> & Hrs).
  { rewrite <- Hlen. apply top5_bound. }
  unfold df_getitem_list. simpl. rewrite decide_True by exact Hcols.
  unfold ret, to_dict_records. simpl.
  by rewrite <- (public_of_picked df _ rs Hrs).
Qed.

Lemma handler_of_body (movie_id : Z) (st : State) :
  get_movie_recommendations movie_id st
  = match recommend_body movie_id st with
    | (st', inr a) => (st', inr a)
    | (st', inl e) => (st', inl {| status_code := 500; detail := str e |})
    end.
Proof. done. Qed.

Lemma twins_built :
  built st_twins (frame_of [alpha; beta; gamma]) sim_twins.
Proof.
  split; try reflexivity.
  - apply (bool_decide_unpack _). by vm_compute.
  - apply (bool_decide_unpack _). by vm_compute.
Qed.

(** ** The claims about the request handler *)


(** C2 (as amended): on a built index, a query for an id that no Corpus
    record carries fails with status 500, the status of every failure of the
    handler, with the text of the [IndexError] of the empty index lookup as
    detail; the three caches are unchanged. *)
Theorem unknown_id_fails_500 st df sim (movie_id : Z) :
  built st df sim → absent movie_id df →
  get_movie_recommendations movie_id st
  = (st, inl {| status_code := 500;
                detail := "index 0 is out of bounds for axis 0 with size 0" |}).
Proof.
  intros Hb Ha. rewrite handler_of_body.
  by rewrite (recommend_body_absent st df sim movie_id Hb Ha).
Qed.

Lemma unknown_id_fails_500_witness :
  built st_twins (frame_of [alpha; beta; gamma]) sim_twins ∧
  absent 7 (frame_of [alpha; beta; gamma]) ∧
  get_movie_recommendations 7 st_twins
  = (st_twins,
     inl {| status_code := 500;
            detail := "index 0 is out of bounds for axis 0 with size 0" |}).
Proof.
  assert (Ha : absent 7 (frame_of [alpha; beta; gamma])).
  { unfold absent, has_id. apply (bool_decide_unpack _). by vm_compute. }
  split; [exact twins_built|]. split; [exact Ha|].
  exact (unknown_id_fails_500 _ _ _ 7 twins_built Ha).
Defined.

(** C2 (as stated, refuted): the failure for the unknown id 7 on the built
    index of Alpha, Beta, Gamma is not told apart from a generic failure. *)
Lemma unknown_id_not_classified :
  built st_twins (frame_of [alpha; beta; gamma]) sim_twins ∧
  absent 7 (frame_of [alpha; beta; gamma]) ∧
  ¬ classified_failure (get_movie_recommendations 7 st_twins).2.
Proof.
  split; [exact twins_built|]. split.
  - unfold absent, has_id. apply (bool_decide_unpack _). by vm_compute.
  - intros (e & He & Hgen). apply Hgen.
    vm_compute in He. injection He as <-. reflexivity.
Qed.

Lemma public_record_fields (df : DataFrame) (p : nat) :
  dom (public_record df p) = list_to_set public_fields ∧
  ∀ c, c ∈ public_fields →
       public_record df p !! c = Some (cell c (record_at df p)).
Proof.
  unfold public_record, project. split.
  - rewrite dom_list_to_map_L, <- list_fmap_compose.
    by rewrite list_fmap_id.
  - intros c Hc. apply elem_of_list_to_map.
    + rewrite <- list_fmap_compose, list_fmap_id. by compute_done.
    + apply list_elem_of_fmap. by exists c.
Qed.

(** C6: on a built index over a Corpus of n records, a query for an id of the
    Corpus returns min(5, n - 1) entries; they are, in ranking order, the
    public views of the Corpus records at the row positions that follow the
    first one in the ranking of the queried row, and each view has exactly
    the keys id, title, overview, poster_path with the cells of that row. *)
Theorem recommendations_length_and_fields st df sim (movie_id : Z) :
  built st df sim → present movie_id df →
  ∃ i row,
    first_row movie_id df i ∧ sim !! i = Some row ∧
    let movie_indices := fst <$> slice 1 6 (ranked row) in
    get_movie_recommendations movie_id st
    = (st, inr {| recommendations := public_record df <$> movie_indices |}) ∧
    length (public_record df <$> movie_indices) = min 5 (nrows df - 1) ∧
    Forall (λ p, p < nrows df ∧
                 dom (public_record df p) = list_to_set public_fields ∧
                 ∀ c, c ∈ public_fields →
                      public_record df p !! c
                      = Some (cell c (record_at df p)))
           movie_indices.
Proof.
  intros Hb Hp.
  destruct (recommend_body_present st df sim movie_id Hb Hp)
    as (i & row & Hfirst & Hrow & Hlen & Hbody).
  exists i, row. split; [done|]. split; [done|]. simpl.
  change (slice 1 6 (ranked row)) with (top5 row). split_and!.
  - by rewrite handler_of_body, Hbody.
  - by rewrite !length_fmap, top5_length, Hlen.
  - pose proof (top5_bound row) as Hbound. rewrite Hlen in Hbound.
    eapply Forall_impl; [exact Hbound|]. intros p Hlt. simpl in Hlt.
    split; [done|]. apply public_record_fields.
Qed.

Lemma recommendations_length_and_fields_witness :
  built st_twins (frame_of [alpha; beta; gamma]) sim_twins ∧
  present 1 (frame_of [alpha; beta; gamma]) ∧
  ∃ i row,
    first_row 1 (frame_of [alpha; beta; gamma]) i ∧
    sim_twins !! i = Some row ∧
    let movie_indices := fst <$> slice 1 6 (ranked row) in
    get_movie_recommendations 1 st_twins
    = (st_twins,
       inr {| recommendations :=
                public_record (frame_of [alpha; beta; gamma])
                  <$> movie_indices |}) ∧
    length (public_record (frame_of [alpha; beta; gamma]) <$> movie_indices)
    = min 5 (nrows (frame_of [alpha; beta; gamma]) - 1) ∧
    Forall (λ p, p < nrows (frame_of [alpha; beta; gamma]) ∧
                 dom (public_record (frame_of [alpha; beta; gamma]) p)
                 = list_to_set public_fields ∧
                 ∀ c, c ∈ public_fields →
                      public_record (frame_of [alpha; beta; gamma]) p !! c
                      = Some (cell c
                                (record_at (frame_of [alpha; beta; gamma]) p)))
           movie_indices.
Proof.
  assert (Hp : present 1 (frame_of [alpha; beta; gamma])).
  { unfold present, has_id. apply (bool_decide_unpack _). by vm_compute. }
  split; [exact twins_built|]. split; [exact Hp|].
  exact (recommendations_length_and_fields _ _ _ 1 twins_built Hp).
Defined.

(** C7 (as amended): while the index is not built, every query fails at once
    with status 500, the status of every failure of the handler, and leaves
    the caches as they are; before any build has assigned [movies_df] the
    detail is the text of the [TypeError] of subscripting [None]. *)
Theorem query_before_build_fails_500 st (movie_id : Z) :
  not_built st →
  (∃ d, get_movie_recommendations movie_id st
        = (st, inl {| status_code := 500; detail := d |})) ∧
  (movies_df st = None →
   get_movie_recommendations movie_id st
   = (st, inl {| status_code := 500;
                 detail := "'NoneType' object is not subscriptable" |})).
Proof.
  intros Hnb. unfold not_built in Hnb. rewrite handler_of_body.
  unfold recommend_body, bind, load, lift.
  destruct (movies_df st) as [df|] eqn:Hdf; simpl.
  - split; [|done].
    destruct (df_getitem df "id") as [e|ids]; [by eexists|].
    destruct (index_getitem0 _) as [e|idx]; [by eexists|].
    rewrite Hnb. simpl. by eexists.
  - split; [by eexists|done].
Qed.

Lemma query_before_build_fails_500_witness :
  not_built initial_state ∧
  (∃ d, get_movie_recommendations 1 initial_state
        = (initial_state, inl {| status_code := 500; detail := d |})) ∧
  (movies_df initial_state = None →
   get_movie_recommendations 1 initial_state
   = (initial_state,
      inl {| status_code := 500;
             detail := "'NoneType' object is not subscriptable" |})).
Proof.
  split; [reflexivity|].
  exact (query_before_build_fails_500 initial_state 1 eq_refl).
Defined.

(** C7 (as stated, refuted): the failure of a query in the initial state is
    not told apart from a generic failure. *)
Lemma query_before_build_not_classified :
  not_built initial_state ∧
  ¬ classified_failure (get_movie_recommendations 1 initial_state).2.
Proof.
  split; [reflexivity|].
  intros (e & He & Hgen). apply Hgen.
  vm_compute in He. injection He as <-. reflexivity.
Qed.



(** C10: a query never changes the three caches, whatever the state and the
    id and whether it succeeds or fails, and a second query with the same id
    returns the same result. *)
Theorem query_is_read_only (movie_id : Z) (st : State) :
  (get_movie_recommendations movie_id st).1 = st ∧
  get_movie_recommendations movie_id
    (get_movie_recommendations movie_id st).1
  = get_movie_recommendations movie_id st.
Proof.
  assert (H1 : (get_movie_recommendations movie_id st).1 = st).
  { rewrite handler_of_body.
    pose proof (recommend_body_read_only movie_id st) as Hro.
    by destruct (recommend_body movie_id st) as [st' [e|a]]. }
  split; [exact H1|]. by rewrite H1.
Qed.

(** ** Data-frame lemmas for the build *)

Lemma cell_fill (c : string) (cols : gset string) (m : dict) :
  cell c (fill cols m) = cell c m.
Proof.
  unfold cell, fill. rewrite lookup_union.
  destruct (m !! c) as [v|] eqn:Hm; simpl.
  - by destruct (gset_to_gmap VNaN cols !! c).
  - rewrite lookup_gset_to_gmap. unfold guard. by case_decide.
Qed.


Lemma imap_labelled_snd {A B C} (g : A → B) (h : B → C) (l : list A) :
  (λ r : nat * B, h r.2) <$> imap (λ i m, (i, g m)) l
  = (λ m, h (g m)) <$> l.
Proof.
  rewrite fmap_imap.
  rewrite (imap_ext _ (const (λ m, h (g m)))) by done.
  apply imap_const.
Qed.


Lemma pd_DataFrame_nrows (movies : list dict) :
  nrows (pd_DataFrame movies) = length movies.
Proof. unfold nrows, pd_DataFrame. simpl. by rewrite length_imap. Qed.

Lemma pd_DataFrame_column (movies : list dict) (c : string) :
  c ∈ columns (pd_DataFrame movies) ↔ ∃ m, m ∈ movies ∧ c ∈ dom m.
Proof.
  unfold pd_DataFrame. simpl. rewrite elem_of_union_list. split.
  - intros (X & HX & Hc). apply list_elem_of_fmap in HX as (m & -> & Hm).
    by exists m.
  - intros (m & Hm & Hc). exists (dom m). split; [|done].
    apply list_elem_of_fmap. by exists m.
Qed.

Lemma pd_DataFrame_getitem (movies : list dict) (c : string) :
  c ∈ columns (pd_DataFrame movies) →
  df_getitem (pd_DataFrame movies) c = inr (cell c <$> movies).
Proof.
  intros Hc. unfold df_getitem. rewrite decide_True by done. f_equal.
  unfold pd_DataFrame. simpl. rewrite imap_labelled_snd.
  apply list_fmap_ext. intros i m _. apply cell_fill.
Qed.

Lemma df_getitem_length (df : DataFrame) (c : string) (s : list value) :
  df_getitem df c = inr s → length s = nrows df.
Proof.
  unfold df_getitem. case_decide; [|done].
  intros [= <-]. by rewrite length_fmap.
Qed.

Lemma df_getitem_column (df : DataFrame) (c : string) (s : list value) :
  df_getitem df c = inr s → c ∈ columns df.
Proof. unfold df_getitem. by case_decide. Qed.

Lemma sequence_length {A} (rs : list (exn + A)) (l : list A) :
  sequence rs = inr l → length l = length rs.
Proof.
  revert l. induction rs as [|[e|a] rs IH]; intros l; simpl.
  - by intros [= <-].
  - done.
  - destruct (sequence rs) as [e|l']; [done|].
    intros [= <-]. simpl. f_equal. by apply IH.
Qed.

Lemma sequence_lookup {A} (rs : list (exn + A)) (l : list A) (p : nat)
    (r : exn + A) :
  sequence rs = inr l → rs !! p = Some r →
  ∃ a, r = inr a ∧ l !! p = Some a.
Proof.
  revert l p. induction rs as [|[e|a] rs IH]; intros l p; simpl; [done..|].
  destruct (sequence rs) as [e|l'] eqn:Hseq; [done|].
  intros [= <-]. destruct p as [|p]; simpl.
  - intros [= <-]. by exists a.
  - by apply IH.
Qed.

Lemma add_cells_isna (a b v : value) :
  isna a = true ∨ isna b = true → add_cells a b = inr v → v = VNaN.
Proof.
  unfold add_cells. intros [-> | ->]; rewrite ?orb_true_r; simpl;
    by intros [= <-].
Qed.

Lemma sequence_inr {A} (l : list A) : sequence (inr <$> l) = inr l.
Proof.
  induction l as [|a l IH]; [done|].
  rewrite fmap_cons. cbn [sequence]. by rewrite IH.
Qed.



Lemma df_setitem_getitem (df : DataFrame) (c : string) (s : list value) :
  length s = nrows df → df_getitem (df_setitem df c s) c = inr s.
Proof.
  intros Hlen. unfold df_getitem, df_setitem. simpl.
  rewrite decide_True by set_solver. f_equal.
  revert s Hlen. unfold nrows.
  induction (rows df) as [|r l IH]; intros [|v s] Hlen; simpl in *;
    try done.
  f_equal; [|apply IH; lia].
  unfold cell. by rewrite lookup_insert_eq.
Qed.


(** ** The build, step by step *)

Section BuildFacts.
Context (tfidf_kernel : list string → exn + matrix).
Context (cosine_similarity : matrix → matrix → exn + matrix).

Lemma prepare_fetch_failed (e : exn) (st : State) :
  prepare_content_based_filtering (inl e) tfidf_kernel cosine_similarity st
  = (st, inl e).
Proof. done. Qed.

Lemma prepare_steps (movies : list dict) (st : State) :
  prepare_content_based_filtering (inr movies) tfidf_kernel
    cosine_similarity st
  = let df := pd_DataFrame movies in
    let st1 := {| movies_df := Some df; tfidf_matrix := tfidf_matrix st;
                  cosine_sim := cosine_sim st |} in
    match df_getitem df "overview" with
    | inl e => (st1, inl e)
    | inr overview =>
    match series_add_scalar overview (VStr " ") with
    | inl e => (st1, inl e)
    | inr spaced =>
    match df_getitem df "title" with
    | inl e => (st1, inl e)
    | inr title =>
    match series_add spaced title with
    | inl e => (st1, inl e)
    | inr combined =>
    let df' := df_setitem df "combined_features" combined in
    let st2 := {| movies_df := Some df'; tfidf_matrix := tfidf_matrix st;
                  cosine_sim := cosine_sim st |} in
    match df_getitem df' "combined_features" with
    | inl e => (st2, inl e)
    | inr features =>
    match fit_transform tfidf_kernel features with
    | inl e => (st2, inl e)
    | inr tfidf =>
    match cosine_similarity tfidf tfidf with
    | inl e => ({| movies_df := Some df'; tfidf_matrix := Some tfidf;
                   cosine_sim := cosine_sim st |}, inl e)
    | inr sim => ({| movies_df := Some df'; tfidf_matrix := Some tfidf;
                     cosine_sim := Some sim |}, inr tt)
    end end end end end end end.
Proof.
  unfold prepare_content_based_filtering, bind, lift, load,
    store_movies_df, store_tfidf_matrix, store_cosine_sim.
  cbn [movies_df tfidf_matrix cosine_sim subscriptable].
  destruct (df_getitem (pd_DataFrame movies) "overview"); [done|].
  destruct (series_add_scalar _ _); [done|].
  destruct (df_getitem (pd_DataFrame movies) "title"); [done|].
  destruct (series_add _ _); [done|].
  cbn [movies_df tfidf_matrix cosine_sim subscriptable].
  destruct (df_getitem (df_setitem _ _ _) _); [done|].
  destruct (fit_transform _ _); [done|].
  cbn [movies_df tfidf_matrix cosine_sim subscriptable].
  by destruct (cosine_similarity _ _).
Qed.
End BuildFacts.

Section BuildClaims.
Context (tfidf_kernel : list string → exn + matrix).
Context (cosine_similarity : matrix → matrix → exn + matrix).

Lemma fit_transform_texts (texts : list string) :
  fit_transform tfidf_kernel (VStr <$> texts) = tfidf_kernel texts.
Proof.
  unfold fit_transform. rewrite <- list_fmap_compose.
  change (decode ∘ VStr) with (@inr exn string). by rewrite sequence_inr.
Qed.


Lemma combined_of_texts (movies : list dict) :
  Forall has_texts movies →
  ∃ spaced,
    series_add_scalar (cell "overview" <$> movies) (VStr " ") = inr spaced ∧
    series_add spaced (cell "title" <$> movies)
    = inr ((λ m, VStr (feature_text m)) <$> movies).
Proof.
  unfold series_add_scalar, series_add.
  induction 1 as [|m movies (o & t & Ho & Ht) _ (spaced & IH1 & IH2)].
  - by exists [].
  - exists (VStr (o +:+ " ") :: spaced).
    assert (Hov : cell "overview" m = VStr o) by (unfold cell; by rewrite Ho).
    assert (Hti : cell "title" m = VStr t) by (unfold cell; by rewrite Ht).
    assert (Hft : feature_text m = (o +:+ " ") +:+ t)
      by (unfold feature_text; by rewrite Hov, Hti).
    rewrite !fmap_cons, Hov, Hti, Hft.
    cbn [sequence add_cells isna orb zip_with].
    by rewrite IH1, IH2.
Qed.

Lemma texts_columns (movies : list dict) (c : string) :
  movies ≠ [] → Forall (λ m, is_Some (m !! c)) movies →
  c ∈ columns (pd_DataFrame movies).
Proof.
  intros Hne Hall. apply pd_DataFrame_column.
  destruct movies as [|m movies]; [done|].
  apply Forall_cons in Hall as [Hm _].
  exists m. split; [by left|]. by apply elem_of_dom.
Qed.


(** C4 (as amended): for a non-empty Corpus in which every record has its
    overview and its title as strings (possibly empty), the feature step
    does not fail, the feature text of every record is
    overview + " " + title, in the order of the input, and the build
    completes exactly when the two kernels return. *)
Theorem feature_text_of_strings (movies : list dict) (st : State) :
  movies ≠ [] → Forall has_texts movies →
  let texts := feature_text <$> movies in
  df_getitem (frame_of movies) "combined_features" = inr (VStr <$> texts) ∧
  prepare_content_based_filtering (inr movies) tfidf_kernel
    cosine_similarity st
  = match tfidf_kernel texts with
    | inl e =>
        ({| movies_df := Some (frame_of movies);
            tfidf_matrix := tfidf_matrix st;
            cosine_sim := cosine_sim st |}, inl e)
    | inr tfidf =>
        match cosine_similarity tfidf tfidf with
        | inl e =>
            ({| movies_df := Some (frame_of movies);
                tfidf_matrix := Some tfidf;
                cosine_sim := cosine_sim st |}, inl e)
        | inr sim =>
            ({| movies_df := Some (frame_of movies);
                tfidf_matrix := Some tfidf;
                cosine_sim := Some sim |}, inr tt)
        end
    end.
Proof.
  intros Hne Hall texts.
  assert (Hfeat : df_getitem (frame_of movies) "combined_features"
                  = inr (VStr <$> texts)).
  { unfold frame_of, texts. rewrite df_setitem_getitem.
    - by rewrite <- list_fmap_compose.
    - by rewrite length_fmap, pd_DataFrame_nrows. }
  split; [exact Hfeat|].
  rewrite prepare_steps. cbv zeta.
  rewrite !pd_DataFrame_getitem.
  2:{ apply texts_columns; [done|]. eapply Forall_impl; [exact Hall|].
      by intros m (o & t & _ & ->). }
  2:{ apply texts_columns; [done|]. eapply Forall_impl; [exact Hall|].
      by intros m (o & t & -> & _). }
  destruct (combined_of_texts movies Hall) as (spaced & -> & ->).
  change (df_setitem (pd_DataFrame movies) "combined_features"
            ((λ m, VStr (feature_text m)) <$> movies))
    with (frame_of movies).
  rewrite Hfeat, fit_transform_texts.
  destruct (tfidf_kernel texts) as [e|tfidf]; [done|].
  by destruct (cosine_similarity tfidf tfidf).
Qed.

(** The build never assigns [cosine_sim] when it fails, so the index stays
    not built through any number of failed builds from the initial state. *)
Lemma failed_build_not_built (fetch : exn + list dict) (st st' : State)
    (e : exn) :
  prepare_content_based_filtering fetch tfidf_kernel cosine_similarity st
  = (st', inl e) →
  not_built st → not_built st'.
Proof.
  unfold not_built. destruct fetch as [e'|movies].
  - rewrite prepare_fetch_failed. by intros [= <- _].
  - rewrite prepare_steps. cbv zeta.
    repeat match goal with
           | |- context [match ?x with inl _ => _ | inr _ => _ end] =>
               destruct x; [by intros [= <- _]|]
           end.
    done.
Qed.

(** The other direction of the feature step: a record whose overview or
    title is missing or null gets the feature text [nan], and the build
    fails, whatever the kernels are. *)
Lemma missing_text_fails_build (movies : list dict) (st : State) :
  Exists (λ m, isna (cell "overview" m) = true ∨ isna (cell "title" m) = true)
    movies →
  ∃ st' e,
    prepare_content_based_filtering (inr movies) tfidf_kernel
      cosine_similarity st = (st', inl e).
Proof.
  intros Hmiss. rewrite prepare_steps. cbv zeta.
  destruct (df_getitem (pd_DataFrame movies) "overview")
    as [?|overview] eqn:Hov; [by eexists _, _|].
  destruct (series_add_scalar _ _) as [?|spaced] eqn:Hsp; [by eexists _, _|].
  destruct (df_getitem (pd_DataFrame movies) "title")
    as [?|title] eqn:Hti; [by eexists _, _|].
  destruct (series_add _ _) as [?|combined] eqn:Hco; [by eexists _, _|].
  rewrite df_setitem_getitem.
  2:{ apply sequence_length in Hco, Hsp. apply df_getitem_length in Hov, Hti.
      rewrite Hco, length_zip_with, Hsp, length_fmap. lia. }
  assert (Hfit : ∃ e, fit_transform tfidf_kernel combined = inl e);
    [|destruct Hfit as [e ->]; by eexists _, _].
  rewrite pd_DataFrame_getitem in Hov by by eapply df_getitem_column.
  rewrite pd_DataFrame_getitem in Hti by by eapply df_getitem_column.
  injection Hov as <-. injection Hti as <-.
  apply Exists_exists in Hmiss as (m & Hm & Hna).
  apply list_elem_of_lookup in Hm as [p Hp].
  unfold series_add_scalar in Hsp. unfold series_add in Hco.
  destruct (sequence_lookup _ _ p (add_cells (cell "overview" m) (VStr " "))
              Hsp) as (a & Ha & Hsp').
  { by rewrite !list_lookup_fmap, Hp. }
  destruct (sequence_lookup _ _ p (add_cells a (cell "title" m)) Hco)
    as (b & Hb & Hco').
  { by rewrite lookup_zip_with, Hsp', list_lookup_fmap, Hp. }
  assert (b = VNaN) as ->.
  { destruct Hna as [Hna|Hna].
    - assert (a = VNaN) as ->
        by exact (add_cells_isna _ _ _ (or_introl Hna) Ha).
      exact (add_cells_isna VNaN _ _ (or_introl eq_refl) Hb).
    - exact (add_cells_isna _ _ _ (or_intror Hna) Hb). }
  unfold fit_transform.
  destruct (sequence (decode <$> combined)) as [e|texts] eqn:Hdec;
    [by eexists|].
  destruct (sequence_lookup _ _ p (decode VNaN) Hdec) as (t & Ht & _);
    [by rewrite list_lookup_fmap, Hco'|done].
Qed.



End BuildClaims.





Lemma feature_text_of_strings_witness :
  [alpha; beta; gamma] ≠ [] ∧ Forall has_texts [alpha; beta; gamma] ∧
  df_getitem (frame_of [alpha; beta; gamma]) "combined_features"
  = inr (VStr <$> (feature_text <$> [alpha; beta; gamma])) ∧
  prepare_content_based_filtering (inr [alpha; beta; gamma]) unit_tfidf
    ones_similarity initial_state
  = match unit_tfidf (feature_text <$> [alpha; beta; gamma]) with
    | inl e =>
        ({| movies_df := Some (frame_of [alpha; beta; gamma]);
            tfidf_matrix := tfidf_matrix initial_state;
            cosine_sim := cosine_sim initial_state |}, inl e)
    | inr tfidf =>
        match ones_similarity tfidf tfidf with
        | inl e =>
            ({| movies_df := Some (frame_of [alpha; beta; gamma]);
                tfidf_matrix := Some tfidf;
                cosine_sim := cosine_sim initial_state |}, inl e)
        | inr sim =>
            ({| movies_df := Some (frame_of [alpha; beta; gamma]);
                tfidf_matrix := Some tfidf;
                cosine_sim := Some sim |}, inr tt)
        end
    end.
Proof.
  assert (Hne : [alpha; beta; gamma] ≠ []) by discriminate.
  assert (Hall : Forall has_texts [alpha; beta; gamma]).
  { repeat constructor; eexists _, _; split; vm_compute; reflexivity. }
  split; [exact Hne|]. split; [exact Hall|].
  exact (feature_text_of_strings unit_tfidf ones_similarity
           [alpha; beta; gamma] initial_state Hne Hall).
Defined.

(** C4 (as stated, refuted): in the Corpus of Alpha and a record whose
    overview is null, the feature text of the second record is [nan], not
    " Delta", and the build fails in the vectorizer. *)
Lemma null_overview_fails_build :
  let r := prepare_content_based_filtering (inr [alpha; null_overview])
             unit_tfidf ones_similarity initial_state in
  r.2 = inl (ValueError
    "np.nan is an invalid document, expected byte or unicode string.") ∧
  ∃ df, movies_df r.1 = Some df ∧
        df_getitem df "combined_features"
        = inr [VStr "a hero saves the world Alpha"; VNaN].
Proof.
  cbv zeta. split.
  - vm_compute. reflexivity.
  - eexists. split; vm_compute; reflexivity.
Qed.


